(** * LangSmith Q&A agent: a shallow embedding of the three-node pipeline

    Embeds [src/agent.py] (the graph state, [retriever_node],
    [generator_node], [formatter_node], [create_agent] and the
    module-level [retriever_tool] global) and the retriever tool of
    [src/utils.py] ([create_retriever_tool], [get_gateway_embeddings],
    [load_retriever_tool]), the ingestion of [src/app.py]
    ([setup_vector_store]) and the start-up of [src/server.py]
    ([load_agent] and its [__main__] check).  The remote provider
    (embeddings and chat completions behind the gateway) is a record of
    functions, so a concrete provider can be plugged in at a concrete
    input; Python exceptions are values of [PyExc]. *)

From Stdlib Require Import String Ascii List Bool Arith Lia QArith.
From Stdlib Require Import Sorting.Sorted Sorting.Permutation.
Import ListNotations.
Open Scope nat_scope.
Open Scope string_scope.

(* ------------------------------------------------------------------ *)
(** ** Strings *)

Definition nl : string := String (ascii_of_nat 10) EmptyString.

(** Python's [sep.join(xs)]. *)
Definition py_join (sep : string) (xs : list string) : string :=
  String.concat sep xs.

(** Python's [x in y] for strings. *)
Definition substring_of (x y : string) : Prop :=
  exists pre post, y = pre ++ x ++ post.

(* ------------------------------------------------------------------ *)
(** ** Exceptions

    A raised Python exception, identified by its class name as a caller
    catching it would see it. *)

Record PyExc := mkExc { exc_class : string }.

Definition AttributeError : PyExc := mkExc "AttributeError".
Definition KeyError : PyExc := mkExc "KeyError".
Definition GraphRecursionError : PyExc := mkExc "GraphRecursionError".

(** The class [openai] raises when a request through the gateway client
    exceeds its [timeout=60.0]; both the embeddings client
    ([get_gateway_embeddings]) and the chat client ([generator_node]) are
    [openai] clients. *)
Definition APITimeoutError : PyExc := mkExc "APITimeoutError".

(** A computation that returns a value or raises. *)
Definition Result (A : Type) : Type := (A + PyExc)%type.

(* ------------------------------------------------------------------ *)
(** ** The provider (embeddings and chat completions) *)

Definition Vec := list Z.

Inductive Message :=
| SystemMessage (content : string)
| HumanMessage (content : string).

(** The request [ChatOpenAI(...).invoke(messages)] sends through the
    gateway clients built in [generator_node]. *)
Record ChatRequest := mkChatRequest {
  req_base_url : string;
  req_headers : list (string * string);
  req_timeout : Q;
  req_model : string;
  req_temperature : Q;
  req_messages : list Message
}.

(** A deterministic provider: embedding and completion are functions of
    their inputs; either may raise. *)
Record Provider := mkProvider {
  embed : string -> Result Vec;
  complete : ChatRequest -> Result string
}.

(* ------------------------------------------------------------------ *)
(** ** The document index and the retriever tool ([src/utils.py]) *)

Record Doc := mkDoc { page_content : string; doc_vec : Vec }.

(** Squared Euclidean distance, the metric of a flat FAISS index. *)
Fixpoint l2sq (u v : Vec) : Z :=
  match u, v with
  | x :: u', y :: v' => (x - y) * (x - y) + l2sq u' v'
  | _, _ => 0
  end%Z.

(** Stable insertion by distance to the query vector. *)
Fixpoint insert_by (key : Doc -> Z) (d : Doc) (l : list Doc) : list Doc :=
  match l with
  | [] => [d]
  | x :: l' => if (key d <=? key x)%Z then d :: x :: l' else x :: insert_by key d l'
  end.

Fixpoint sort_by (key : Doc -> Z) (l : list Doc) : list Doc :=
  match l with
  | [] => []
  | x :: l' => insert_by key x (sort_by key l')
  end.

(** [vectorstore.as_retriever(search_kwargs={"k": k}).invoke(query)]:
    embed the query, then return the [k] stored chunks nearest to it,
    nearest first (fewer when the index holds fewer). *)
Definition faiss_search (prov : Provider) (index : list Doc) (k : nat) (query : string)
  : Result (list Doc) :=
  match embed prov query with
  | inl qv => inl (firstn k (sort_by (fun d => l2sq qv (doc_vec d)) index))
  | inr e => inr e
  end.

(** The [Tool] built by [create_retriever_tool(vectorstore)]: its index
    and its [k].  The vectorstore's embedding client is not part of this
    record: queries are embedded by the provider given at invocation. *)
Record Tool := mkTool { tool_index : list Doc; tool_k : nat }.

Definition create_retriever_tool (vectorstore : list Doc) : Tool :=
  mkTool vectorstore 3.

Definition two_newlines : string := nl ++ nl.

(** [retriever_tool.invoke(query)], i.e. its [func]:
    [lambda query: "\n\n".join([doc.page_content for doc in retriever.invoke(query)])]. *)
Definition tool_invoke (prov : Provider) (t : Tool) (query : string) : Result string :=
  match faiss_search prov (tool_index t) (tool_k t) query with
  | inl docs => inl (py_join two_newlines (map page_content docs))
  | inr e => inr e
  end.

(* ------------------------------------------------------------------ *)
(** ** Process state: environment and the [retriever_tool] global *)

Definition Env := list (string * string).

(** [os.getenv(name)]. *)
Fixpoint getenv (env : Env) (name : string) : option string :=
  match env with
  | [] => None
  | (k, v) :: env' => if String.eqb k name then Some v else getenv env' name
  end.

(** [os.environ[name] = v]. *)
Definition setenv (env : Env) (name v : string) : Env := (name, v) :: env.

(** What the running interpreter holds across invocations: the process
    environment and the module-level global [retriever_tool] of
    [agent.py] ([None] until [create_agent] runs). *)
Record World := mkWorld { env : Env; retriever_tool : option Tool }.

Definition initial_world (e : Env) : World := mkWorld e None.

(* ------------------------------------------------------------------ *)
(** ** Graph state ([GraphState]) and partial updates *)

(** The keys LangGraph holds for the [GraphState] TypedDict; a key that
    no one has written yet is absent ([None]), and [state["k"]] on it
    raises [KeyError]. *)
Record GraphState := mkState {
  question : option string;
  documents : option string;
  answer : option string;
  formatted_output : option string
}.

Inductive Field := Fquestion | Fdocuments | Fanswer | Fformatted_output.

(** A node's return value: the partial dict it returns. *)
Definition Update := list (Field * string).

Definition set_field (s : GraphState) (f : Field) (v : string) : GraphState :=
  match f with
  | Fquestion => mkState (Some v) (documents s) (answer s) (formatted_output s)
  | Fdocuments => mkState (question s) (Some v) (answer s) (formatted_output s)
  | Fanswer => mkState (question s) (documents s) (Some v) (formatted_output s)
  | Fformatted_output => mkState (question s) (documents s) (answer s) (Some v)
  end.

(** LangGraph merges a returned dict into the state key by key (each key
    is a last-value channel). *)
Definition merge (s : GraphState) (u : Update) : GraphState :=
  fold_left (fun s fv => set_field s (fst fv) (snd fv)) u s.

Definition get_field (s : GraphState) (f : Field) : option string :=
  match f with
  | Fquestion => question s
  | Fdocuments => documents s
  | Fanswer => answer s
  | Fformatted_output => formatted_output s
  end.

(** [state["k"]]. *)
Definition read (s : GraphState) (f : Field) : Result string :=
  match get_field s f with Some v => inl v | None => inr KeyError end.

(** The input [{"question": q}]. *)
Definition init_state (q : string) : GraphState := mkState (Some q) None None None.

(** A node: reads the state, may touch the process, returns its update. *)
Definition NodeFn := Provider -> World -> GraphState -> Result Update * World.

(* ------------------------------------------------------------------ *)
(** ** Node 1: [retriever_node] *)

Definition retriever_node : NodeFn := fun prov w s =>
  match read s Fquestion with
  | inr e => (inr e, w)
  | inl q =>
      match retriever_tool w with
      | None => (inr AttributeError, w)   (* [None.invoke(question)] *)
      | Some t =>
          match tool_invoke prov t q with
          | inl docs => (inl [(Fdocuments, docs)], w)
          | inr e => (inr e, w)
          end
      end
  end.

(* ------------------------------------------------------------------ *)
(** ** Node 2: [generator_node] *)

Definition gateway_base_url : string :=
  "https://gateway.salesforceresearch.ai/openai/process/v1".

Definition llm_model : string := "gpt-4o-mini".
Definition llm_temperature : Q := (3 # 10)%Q.
Definition http_timeout : Q := (60 # 1)%Q.

(** The text of [system_prompt] before its [{documents}] placeholder. *)
Definition system_prompt_prefix : string :=
  "You are a helpful LangSmith documentation expert. " ++ nl ++
  "Use the provided documentation to answer the user's question accurately and concisely." ++ nl ++
  "If the documentation doesn't contain enough information, say so." ++ nl ++
  nl ++
  "Documentation:" ++ nl.

(** [system_prompt.format(documents=documents)]: the template has one
    placeholder, at its end. *)
Definition system_prompt_format (documents : string) : string :=
  system_prompt_prefix ++ documents.

(** [if not os.getenv("OPENAI_API_KEY"): os.environ["OPENAI_API_KEY"] = "dummy"]. *)
Definition ensure_openai_key (e : Env) : Env :=
  match getenv e "OPENAI_API_KEY" with
  | None | Some "" => setenv e "OPENAI_API_KEY" "dummy"
  | Some _ => e
  end.

Definition TypeError : PyExc := mkExc "TypeError".
Definition UnicodeEncodeError : PyExc := mkExc "UnicodeEncodeError".

(** Every character of [s] is ASCII. *)
Fixpoint ascii_only (s : string) : bool :=
  match s with
  | EmptyString => true
  | String c s' => Nat.ltb (nat_of_ascii c) 128 && ascii_only s'
  end.

(** [httpx.Client(base_url=..., headers={"X-Api-Key": os.getenv("X_API_KEY")}, ...)]:
    httpx normalises header values when the client is built, raising
    [TypeError] for [None] (the variable is unset) and
    [UnicodeEncodeError] for a value that is not ASCII. *)
Definition gateway_headers (e : Env) : Result (list (string * string)) :=
  match getenv e "X_API_KEY" with
  | None => inr TypeError
  | Some v => if ascii_only v then inl [("X-Api-Key", v)] else inr UnicodeEncodeError
  end.

(** The request [llm.invoke(messages)] sends through the gateway client
    built with [headers]. *)
Definition chat_request (headers : list (string * string)) (question documents : string)
  : ChatRequest :=
  mkChatRequest gateway_base_url headers
    http_timeout llm_model llm_temperature
    [SystemMessage (system_prompt_format documents); HumanMessage question].

Definition generator_node : NodeFn := fun prov w s =>
  match read s Fquestion with
  | inr e => (inr e, w)
  | inl q =>
      match read s Fdocuments with
      | inr e => (inr e, w)
      | inl docs =>
          let e' := ensure_openai_key (env w) in
          let w' := mkWorld e' (retriever_tool w) in
          match gateway_headers e' with
          | inr ex => (inr ex, w')
          | inl hdrs =>
              match complete prov (chat_request hdrs q docs) with
              | inl ans => (inl [(Fanswer, ans)], w')
              | inr ex => (inr ex, w')
              end
          end
      end
  end.

(* ------------------------------------------------------------------ *)
(** ** Node 3: [formatter_node] *)

Definition banner_top : string :=
  "╔══════════════════════════════════════════════════════════════╗".
Definition banner_title : string :=
  "║                    LANGSMITH Q&A AGENT                       ║".
Definition banner_bottom : string :=
  "╚══════════════════════════════════════════════════════════════╝".
Definition closing_rule : string :=
  "══════════════════════════════════════════════════════════════".

(** The f-string of [formatter_node], cut at its two placeholders. *)
Definition fmt_prefix : string :=
  nl ++ banner_top ++ nl ++ banner_title ++ nl ++ banner_bottom ++ nl ++ nl ++
  "📝 Question:" ++ nl.
Definition fmt_mid : string := nl ++ nl ++ "💡 Answer:" ++ nl.
Definition fmt_suffix : string := nl ++ nl ++ closing_rule ++ nl.

Definition format_output (question answer : string) : string :=
  fmt_prefix ++ question ++ fmt_mid ++ answer ++ fmt_suffix.

Definition formatter_node : NodeFn := fun prov w s =>
  match read s Fquestion with
  | inr e => (inr e, w)
  | inl q =>
      match read s Fanswer with
      | inr e => (inr e, w)
      | inl a => (inl [(Fformatted_output, format_output q a)], w)
      end
  end.

(* ------------------------------------------------------------------ *)
(** ** [StateGraph]: building, compiling and running *)

Definition END : string := "__end__".

Record StateGraph := mkGraph {
  graph_nodes : list (string * NodeFn);
  graph_edges : list (string * string);
  graph_entry : option string
}.

Definition empty_graph : StateGraph := mkGraph [] [] None.

Definition add_node (g : StateGraph) (name : string) (f : NodeFn) : StateGraph :=
  mkGraph (app (graph_nodes g) [(name, f)]) (graph_edges g) (graph_entry g).

Definition add_edge (g : StateGraph) (src dst : string) : StateGraph :=
  mkGraph (graph_nodes g) (app (graph_edges g) [(src, dst)]) (graph_entry g).

Definition set_entry_point (g : StateGraph) (name : string) : StateGraph :=
  mkGraph (graph_nodes g) (graph_edges g) (Some name).

(** [workflow.compile()] adds no behaviour the pipeline depends on. *)
Definition compile (g : StateGraph) : StateGraph := g.

Fixpoint assoc {A : Type} (k : string) (l : list (string * A)) : option A :=
  match l with
  | [] => None
  | (k', v) :: l' => if String.eqb k' k then Some v else assoc k l'
  end.

Definition ValueError : PyExc := mkExc "ValueError".

(** LangGraph's default [recursion_limit]. *)
Definition recursion_limit : nat := 25.

(** Run from node [n]: call it, merge its update, follow its outgoing
    edge ([add_edge] gives every node of the agent exactly one).  The
    trace records the nodes entered, in order.  A node that raises ends
    the run with that exception and no state is returned. *)
Fixpoint run_from (fuel : nat) (g : StateGraph) (prov : Provider) (w : World)
    (s : GraphState) (n : string) (trace : list string)
  : Result GraphState * World * list string :=
  match fuel with
  | O => (inr GraphRecursionError, w, trace)
  | S fuel' =>
      match assoc n (graph_nodes g) with
      | None => (inr ValueError, w, trace)
      | Some f =>
          let '(r, w') := f prov w s in
          let trace' := app trace [n] in
          match r with
          | inr e => (inr e, w', trace')
          | inl u =>
              let s' := merge s u in
              match assoc n (graph_edges g) with
              | None => (inl s', w', trace')
              | Some nxt =>
                  if String.eqb nxt END then (inl s', w', trace')
                  else run_from fuel' g prov w' s' nxt trace'
              end
          end
      end
  end.

(** [agent.invoke({"question": q})]: the final state or the exception,
    the process afterwards, and the nodes entered. *)
Definition invoke (g : StateGraph) (prov : Provider) (w : World) (q : string)
  : Result GraphState * World * list string :=
  match graph_entry g with
  | None => (inr ValueError, w, [])
  | Some n => run_from recursion_limit g prov w (init_state q) n []
  end.

(** The graph [create_agent] builds. *)
Definition workflow : StateGraph :=
  let g := add_node empty_graph "retrieve" retriever_node in
  let g := add_node g "generate" generator_node in
  let g := add_node g "format" formatter_node in
  let g := set_entry_point g "retrieve" in
  let g := add_edge g "retrieve" "generate" in
  let g := add_edge g "generate" "format" in
  add_edge g "format" END.

(** [create_agent(retriever_tool_instance)]: assigns the global, then
    builds and compiles the graph. *)
Definition create_agent (w : World) (retriever_tool_instance : Tool) : StateGraph * World :=
  let w' := mkWorld (env w) (Some retriever_tool_instance) in
  (compile workflow, w').

(** [answer_question]: the caller's view of the pipeline. *)
Definition answer_question (prov : Provider) (w : World) (t : Tool) (q : string)
  : Result GraphState * World * list string :=
  let '(agent, w') := create_agent w t in invoke agent prov w' q.

(* ------------------------------------------------------------------ *)
(** ** Concrete inputs: the scenarios of the spec *)

Definition scenario_question : string := "How does LangSmith tracing work?".
Definition scenario_answer : string := "Tracing logs your LLM calls via callbacks.".
Definition chunk_a : Doc := mkDoc "Tracing lets you log runs." [1%Z].
Definition chunk_b : Doc := mkDoc "Use callbacks to trace." [2%Z].

(** The index stores the farther chunk first; search must reorder. *)
Definition scenario_tool : Tool := create_retriever_tool [chunk_b; chunk_a].
Definition empty_tool : Tool := create_retriever_tool [].

(** Mocked provider: every query embeds to [0]; every completion
    returns the scenario answer. *)
Definition mock_provider : Provider :=
  mkProvider (fun _ => inl [0%Z]) (fun _ => inl scenario_answer).

(** The embedding call times out. *)
Definition embed_timeout_provider : Provider :=
  mkProvider (fun _ => inr APITimeoutError) (fun _ => inl scenario_answer).

(** The completion call times out. *)
Definition complete_timeout_provider : Provider :=
  mkProvider (fun _ => inl [0%Z]) (fun _ => inr APITimeoutError).

Definition some_env : Env := [("X_API_KEY", "k")].

Definition scenario_chunks : list string :=
  ["Tracing lets you log runs."; "Use callbacks to trace."].

(* ------------------------------------------------------------------ *)
(** ** Loading an index ([src/utils.py]) *)

(** The embeddings object of [get_gateway_embeddings]: the gateway
    clients' settings and the embedding model. *)
Record EmbeddingsConfig := mkEmbeddings {
  emb_base_url : string;
  emb_headers : list (string * string);
  emb_timeout : Q;
  emb_model : string
}.

(** [get_gateway_embeddings()]: sets the [OPENAI_API_KEY] default, builds
    the gateway clients (which may raise, see [gateway_headers]), then
    configures [text-embedding-3-small] behind the gateway. *)
Definition get_gateway_embeddings (e : Env) : Result EmbeddingsConfig * Env :=
  let e' := ensure_openai_key e in
  match gateway_headers e' with
  | inr ex => (inr ex, e')
  | inl hdrs => (inl (mkEmbeddings gateway_base_url hdrs http_timeout "text-embedding-3-small"), e')
  end.

(** Index directories saved on disk, by path. *)
Definition FileSystem := list (string * list Doc).

Definition RuntimeError : PyExc := mkExc "RuntimeError".
Definition IndexError : PyExc := mkExc "IndexError".

(** [vectorstore.save_local(path)]. *)
Definition save_local (path : string) (vs : list Doc) (fs : FileSystem) : FileSystem :=
  (path, vs) :: fs.

(** [FAISS.load_local(path, embeddings, ...)]: [faiss.read_index] raises
    [RuntimeError] when no index was saved at [path]. *)
Definition load_local (path : string) (fs : FileSystem) : Result (list Doc) :=
  match assoc path fs with
  | Some vs => inl vs
  | None => inr RuntimeError
  end.

(** [load_retriever_tool(index_path)]. *)
Definition load_retriever_tool (e : Env) (fs : FileSystem) (index_path : string)
  : Result Tool * Env :=
  let '(emb, e') := get_gateway_embeddings e in
  match emb with
  | inr ex => (inr ex, e')
  | inl _ =>
      match load_local index_path fs with
      | inl vs => (inl (create_retriever_tool vs), e')
      | inr ex => (inr ex, e')
      end
  end.

(* ------------------------------------------------------------------ *)
(** ** Ingestion ([setup_vector_store], [src/app.py]) *)

(** [embeddings.embed_documents(texts)]: one embedding call per chunk;
    the first failure is raised. *)
Fixpoint embed_documents (prov : Provider) (texts : list string) : Result (list Doc) :=
  match texts with
  | [] => inl []
  | c :: cs =>
      match embed prov c with
      | inr ex => inr ex
      | inl v =>
          match embed_documents prov cs with
          | inl ds => inl (mkDoc c v :: ds)
          | inr ex => inr ex
          end
      end
  end.

(** [FAISS.from_documents(docs, embeddings)]: embeds every chunk, then
    sizes the flat index by [len(embeddings[0])], which raises
    [IndexError] when there is no chunk. *)
Definition from_documents (prov : Provider) (texts : list string) : Result (list Doc) :=
  match embed_documents prov texts with
  | inl [] => inr IndexError
  | r => r
  end.

Definition faiss_index_path : string := "faiss_langsmith_index".

(** [setup_vector_store()], from the split chunks on: the
    [OPENAI_API_KEY] default, the gateway clients (built before any
    embedding call, see [gateway_headers]), the index built and saved at
    [faiss_index_path], and a retriever tool with [k = 3] that joins page
    contents with two newlines.  Loading the pages ([WebBaseLoader]) and
    splitting them ([RecursiveCharacterTextSplitter]) produce [chunks]. *)
Definition setup_vector_store (prov : Provider) (e : Env) (fs : FileSystem)
    (chunks : list string) : Result Tool * Env * FileSystem :=
  let e' := ensure_openai_key e in
  match gateway_headers e' with
  | inr ex => (inr ex, e', fs)
  | inl _ =>
      match from_documents prov chunks with
      | inr ex => (inr ex, e', fs)
      | inl vectorstore =>
          (inl (mkTool vectorstore 3), e', save_local faiss_index_path vectorstore fs)
      end
  end.

(* ------------------------------------------------------------------ *)
(** ** Server start-up ([src/server.py]) *)

Inductive Startup :=
| Exited (code : nat)
| Loaded (agent : StateGraph) (w : World)
| Serving (agent : StateGraph) (w : World).

(** [load_agent()]: any exception while loading the index ends the
    process with [exit(1)]. *)
Definition load_agent (w : World) (fs : FileSystem) : Startup :=
  match load_retriever_tool (env w) fs faiss_index_path with
  | (inr _, _) => Exited 1
  | (inl t, e') =>
      let '(agent, w') := create_agent (mkWorld e' (retriever_tool w)) t in
      Loaded agent w'
  end.

(** Running [server.py]: the module body ([agent = load_agent()]) runs
    first, then the [__main__] check of [X_API_KEY]. *)
Definition server_main (w : World) (fs : FileSystem) : Startup :=
  match load_agent w fs with
  | Loaded agent w' =>
      match getenv (env w') "X_API_KEY" with
      | None | Some "" => Exited 1
      | Some _ => Serving agent w'
      end
  | other => other
  end.

(** [x] ranks no farther than [y]. *)
Definition nearer (key : Doc -> Z) (x y : Doc) : Prop := (key x <= key y)%Z.

(** [needle in hay], decided. *)
Fixpoint contains (needle hay : string) : bool :=
  match hay with
  | EmptyString => String.prefix needle hay
  | String _ hay' => String.prefix needle hay || contains needle hay'
  end.

(** All four keys of the state are set. *)
Definition all_populated (s : GraphState) : Prop :=
  question s <> None /\ documents s <> None /\ answer s <> None /\
  formatted_output s <> None.

(** The error kinds of the spec's taxonomy, as exception class names. *)
Definition spec_error_kinds : list string :=
  ["IndexUnavailableError"; "RetrievalError"; "GenerationError"].

Definition outcome {A B C : Type} (r : A * B * C) : A := fst (fst r).
Definition trace_of {A B C : Type} (r : A * B * C) : C := snd r.

(* ================================================================== *)
(** * Properties *)

Example scenario_run :
  answer_question mock_provider (initial_world some_env) scenario_tool scenario_question
  = (inl (mkState (Some scenario_question)
                  (Some ("Tracing lets you log runs." ++ nl ++ nl ++ "Use callbacks to trace."))
                  (Some scenario_answer)
                  (Some (format_output scenario_question scenario_answer))),
     mkWorld (setenv some_env "OPENAI_API_KEY" "dummy") (Some scenario_tool),
     ["retrieve"; "generate"; "format"]).
Proof. reflexivity. Qed.

(** ** The compiled graph, stage by stage *)

Lemma retriever_node_tool (prov : Provider) (e : Env) (t : Tool) (q : string)
    (d a f : option string) :
  retriever_node prov (mkWorld e (Some t)) (mkState (Some q) d a f) =
  (match tool_invoke prov t q with
   | inl docs => inl [(Fdocuments, docs)]
   | inr ex => inr ex
   end, mkWorld e (Some t)).
Proof. unfold retriever_node; simpl. destruct (tool_invoke prov t q); reflexivity. Qed.

Lemma invoke_workflow (prov : Provider) (e : Env) (t : Tool) (q : string) :
  invoke workflow prov (mkWorld e (Some t)) q =
  match tool_invoke prov t q with
  | inr ex => (inr ex, mkWorld e (Some t), ["retrieve"])
  | inl d =>
      let e' := ensure_openai_key e in
      match gateway_headers e' with
      | inr ex => (inr ex, mkWorld e' (Some t), ["retrieve"; "generate"])
      | inl hdrs =>
          match complete prov (chat_request hdrs q d) with
          | inr ex => (inr ex, mkWorld e' (Some t), ["retrieve"; "generate"])
          | inl a =>
              (inl (mkState (Some q) (Some d) (Some a) (Some (format_output q a))),
               mkWorld e' (Some t), ["retrieve"; "generate"; "format"])
          end
      end
  end.
Proof.
  unfold invoke, init_state. simpl.
  rewrite retriever_node_tool.
  destruct (tool_invoke prov t q) as [d | ex]; simpl; [| reflexivity].
  unfold generator_node; simpl.
  destruct (gateway_headers (ensure_openai_key e)) as [hdrs | ex]; [| reflexivity].
  destruct (complete prov _) as [a | ex]; reflexivity.
Qed.

(** ** Ranking by distance *)

Section Ranking.
Variable key : Doc -> Z.

Lemma insert_by_perm (d : Doc) (l : list Doc) : Permutation (d :: l) (insert_by key d l).
Proof.
  induction l as [| x l IH]; simpl; [reflexivity |].
  destruct (key d <=? key x)%Z; [reflexivity |].
  rewrite perm_swap. constructor. exact IH.
Qed.

Lemma sort_by_perm (l : list Doc) : Permutation l (sort_by key l).
Proof.
  induction l as [| x l IH]; simpl; [constructor |].
  rewrite <- insert_by_perm. constructor. exact IH.
Qed.

Lemma insert_by_sorted (d : Doc) (l : list Doc) :
  StronglySorted (nearer key) l -> StronglySorted (nearer key) (insert_by key d l).
Proof.
  induction l as [| x l IH]; intros Hs; simpl.
  - repeat constructor.
  - inversion Hs as [| ? ? Hl Hx]; subst.
    destruct (key d <=? key x)%Z eqn:Hdx.
    + apply Z.leb_le in Hdx.
      constructor; [exact Hs |].
      constructor; [exact Hdx |].
      apply Forall_impl with (P := nearer key x); [| exact Hx].
      intros y Hy. unfold nearer in *. lia.
    + apply Z.leb_gt in Hdx.
      constructor; [apply IH; exact Hl |].
      apply (Permutation_Forall (insert_by_perm d l)).
      constructor; [unfold nearer; lia | exact Hx].
Qed.

Lemma sort_by_sorted (l : list Doc) : StronglySorted (nearer key) (sort_by key l).
Proof.
  induction l as [| x l IH]; simpl; [constructor |].
  apply insert_by_sorted. exact IH.
Qed.

Lemma strongly_sorted_app (l1 l2 : list Doc) :
  StronglySorted (nearer key) (l1 ++ l2) ->
  forall x y, In x l1 -> In y l2 -> nearer key x y.
Proof.
  induction l1 as [| a l1 IH]; intros Hs x y Hx Hy; [destruct Hx |].
  inversion Hs as [| ? ? Hl Ha]; subst.
  destruct Hx as [<- | Hx].
  - rewrite Forall_forall in Ha. apply Ha, in_or_app. right; exact Hy.
  - exact (IH Hl x y Hx Hy).
Qed.

Lemma strongly_sorted_app_l (l1 l2 : list Doc) :
  StronglySorted (nearer key) (l1 ++ l2) -> StronglySorted (nearer key) l1.
Proof.
  induction l1 as [| a l1 IH]; intros Hs; [constructor |].
  inversion Hs as [| ? ? Hl Ha]; subst.
  constructor; [exact (IH Hl) |].
  apply Forall_forall. intros y Hy. rewrite Forall_forall in Ha.
  apply Ha, in_or_app. left; exact Hy.
Qed.
End Ranking.

(** ** C2: retrieval returns the k = 3 nearest chunks, joined *)

(** C2: Whenever the query embeds, the Retrieval stage ([retriever_node]
    through the tool of [create_retriever_tool]) sets [documents] to the
    page contents of the first [min(3, n)] chunks of the index ranked
    nearest-first, joined by exactly two newline characters; those chunks
    are ranked by distance and no chunk left out is nearer than a chunk
    kept. *)
Theorem retrieval_top_k_joined (prov : Provider) (e : Env) (idx : list Doc)
    (q : string) (qv : Vec) (Hembed : embed prov q = inl qv) :
  let key := fun d => l2sq qv (doc_vec d) in
  let top := firstn 3 (sort_by key idx) in
  let w := mkWorld e (Some (create_retriever_tool idx)) in
  retriever_node prov w (init_state q)
    = (inl [(Fdocuments, py_join two_newlines (map page_content top))], w)
  /\ length top = Nat.min 3 (length idx)
  /\ StronglySorted (nearer key) top
  /\ exists rest, Permutation idx (app top rest)
       /\ forall x y, In x top -> In y rest -> nearer key x y.
Proof.
  intros key top w. split; [| split; [| split]].
  - unfold w, init_state. rewrite retriever_node_tool.
    unfold tool_invoke, faiss_search. simpl. rewrite Hembed. reflexivity.
  - unfold top. rewrite length_firstn, <- (Permutation_length (sort_by_perm key idx)).
    reflexivity.
  - pose proof (sort_by_sorted key idx) as Hs.
    rewrite <- (firstn_skipn 3 (sort_by key idx)) in Hs.
    exact (strongly_sorted_app_l _ _ _ Hs).
  - exists (skipn 3 (sort_by key idx)). split.
    + unfold top. rewrite firstn_skipn. apply sort_by_perm.
    + apply strongly_sorted_app. unfold top. rewrite firstn_skipn. apply sort_by_sorted.
Qed.

Lemma retrieval_top_k_joined_witness :
  embed mock_provider scenario_question = inl [0%Z] /\
  let key := fun d => l2sq [0%Z] (doc_vec d) in
  let top := firstn 3 (sort_by key [chunk_b; chunk_a]) in
  let w := mkWorld some_env (Some (create_retriever_tool [chunk_b; chunk_a])) in
  retriever_node mock_provider w (init_state scenario_question)
    = (inl [(Fdocuments, py_join two_newlines (map page_content top))], w)
  /\ length top = Nat.min 3 (length [chunk_b; chunk_a])
  /\ StronglySorted (nearer key) top
  /\ exists rest, Permutation [chunk_b; chunk_a] (app top rest)
       /\ forall x y, In x top -> In y rest -> nearer key x y.
Proof.
  split; [reflexivity |].
  exact (retrieval_top_k_joined mock_provider some_env [chunk_b; chunk_a]
           scenario_question [0%Z] eq_refl).
Defined.

(** ** Helpers *)

Lemma string_length_append (s1 s2 : string) :
  String.length (s1 ++ s2) = String.length s1 + String.length s2.
Proof. induction s1 as [| c s1 IH]; simpl; [reflexivity | rewrite IH; reflexivity]. Qed.

Lemma string_append_assoc (s1 s2 s3 : string) :
  (s1 ++ s2) ++ s3 = s1 ++ s2 ++ s3.
Proof. induction s1 as [| c s1 IH]; simpl; [reflexivity | rewrite IH; reflexivity]. Qed.


Lemma getenv_setenv_other (e : Env) (n m v : string) :
  n <> m -> getenv (setenv e m v) n = getenv e n.
Proof.
  intros Hnm. simpl. destruct (String.eqb m n) eqn:H; [| reflexivity].
  apply String.eqb_eq in H. congruence.
Qed.

Lemma getenv_ensure_other (e : Env) (n : string) :
  n <> "OPENAI_API_KEY" -> getenv (ensure_openai_key e) n = getenv e n.
Proof.
  intros Hn. unfold ensure_openai_key.
  destruct (getenv e "OPENAI_API_KEY") as [[| c v] |];
    solve [reflexivity | apply getenv_setenv_other; exact Hn].
Qed.

Lemma gateway_headers_ensure (e : Env) :
  gateway_headers (ensure_openai_key e) = gateway_headers e.
Proof.
  unfold gateway_headers. rewrite getenv_ensure_other; [reflexivity | discriminate].
Qed.

(** Building the gateway client fails exactly as httpx does: [TypeError]
    for an unset [X_API_KEY], [UnicodeEncodeError] for a non-ASCII one. *)
Lemma gateway_headers_inr (e : Env) (ex : PyExc) :
  gateway_headers e = inr ex ->
  (getenv e "X_API_KEY" = None /\ ex = TypeError)
  \/ (exists v, getenv e "X_API_KEY" = Some v /\ ascii_only v = false
                /\ ex = UnicodeEncodeError).
Proof.
  unfold gateway_headers. destruct (getenv e "X_API_KEY") as [v |].
  - destruct (ascii_only v) eqn:Ha; intros H; [discriminate H |].
    injection H as <-. right. exists v. split; [reflexivity | split; [exact Ha | reflexivity]].
  - intros H. injection H as <-. left. split; reflexivity.
Qed.

Lemma answer_question_eq (prov : Provider) (w : World) (t : Tool) (q : string) :
  answer_question prov w t q = invoke workflow prov (mkWorld (env w) (Some t)) q.
Proof. reflexivity. Qed.

Lemma ensure_openai_key_idem (e : Env) :
  ensure_openai_key (ensure_openai_key e) = ensure_openai_key e.
Proof.
  unfold ensure_openai_key.
  destruct (getenv e "OPENAI_API_KEY") as [v |] eqn:Hv.
  - destruct v as [| c v]; [reflexivity |]. rewrite Hv. reflexivity.
  - reflexivity.
Qed.

(** ** C1: complete state or a raised exception *)

(** C1 (counterexample): the claim says a failing invocation raises one
    of the spec's error kinds.  When the embedding call of the scenario
    question times out, the invocation raises [openai]'s
    [APITimeoutError] unchanged, which is none of them. *)
Lemma answer_question_error_kind_counterexample :
  ~ ((exists s, outcome (answer_question embed_timeout_provider (initial_world some_env)
                           scenario_tool scenario_question) = inl s /\ all_populated s)
     \/ (exists ex, outcome (answer_question embed_timeout_provider (initial_world some_env)
                              scenario_tool scenario_question) = inr ex
                    /\ In (exc_class ex) spec_error_kinds)).
Proof.
  vm_compute. intros [[s [H _]] | [ex [H Hin]]]; [discriminate H |].
  injection H as <-. simpl in Hin. intuition discriminate.
Qed.

(** C1 (amended): [answer_question] either returns a state with all four
    keys set (the question being the caller's), or raises, unchanged, the
    exception of the embedding call, of the completion call, or of
    building the gateway HTTP client in [generator_node] ([TypeError]
    when [X_API_KEY] is unset, [UnicodeEncodeError] when it is not
    ASCII); it never returns a partially populated state. *)
Theorem answer_question_all_or_raise (prov : Provider) (w : World) (t : Tool) (q : string) :
  (exists s, outcome (answer_question prov w t q) = inl s /\ all_populated s
             /\ question s = Some q)
  \/ (exists ex, outcome (answer_question prov w t q) = inr ex
                 /\ (embed prov q = inr ex
                     \/ (getenv (env w) "X_API_KEY" = None /\ ex = TypeError)
                     \/ (exists v, getenv (env w) "X_API_KEY" = Some v /\ ascii_only v = false
                                   /\ ex = UnicodeEncodeError)
                     \/ exists req, complete prov req = inr ex)).
Proof.
  rewrite answer_question_eq, invoke_workflow. cbv zeta.
  destruct (tool_invoke prov t q) as [d | ex] eqn:Ht.
  - destruct (gateway_headers (ensure_openai_key (env w))) as [hdrs | ex] eqn:Hh.
    + destruct (complete prov (chat_request hdrs q d)) as [a | ex] eqn:Hc;
        unfold outcome; simpl.
      * left. eexists; split; [reflexivity |].
        split; [unfold all_populated; simpl; repeat split; discriminate | reflexivity].
      * right. exists ex. split; [reflexivity |]. right; right; right. eexists; exact Hc.
    + right. exists ex. split; [reflexivity |].
      rewrite gateway_headers_ensure in Hh.
      destruct (gateway_headers_inr _ _ Hh) as [H | H]; [right; left | right; right; left]; exact H.
  - right. exists ex. split; [reflexivity |]. left.
    unfold tool_invoke, faiss_search in Ht.
    destruct (embed prov q); [discriminate Ht | injection Ht as ->; reflexivity].
Qed.

(** ** C3: a failing retrieval *)

(** C3 (counterexample): the claim says a failing retrieval raises a
    [RetrievalError] distinguishable from a [GenerationError].  With the
    embedding call timing out, and with the completion call timing out
    instead, the caller sees the same outcome: [openai]'s
    [APITimeoutError], not a [RetrievalError]. *)
Lemma retrieval_error_kind_counterexample :
  outcome (answer_question embed_timeout_provider (initial_world some_env)
             scenario_tool scenario_question)
  = outcome (answer_question complete_timeout_provider (initial_world some_env)
               scenario_tool scenario_question)
  /\ exists ex, outcome (answer_question embed_timeout_provider (initial_world some_env)
                          scenario_tool scenario_question) = inr ex
                /\ exc_class ex <> "RetrievalError".
Proof.
  split; [reflexivity |].
  exists APITimeoutError. split; [reflexivity | discriminate].
Qed.

(** C3 (amended): when the retriever tool raises (its embedding or
    search call fails), the invocation raises that same exception,
    unchanged; only the [retrieve] node has been entered, the generate and
    format nodes never run, and no state (so no [documents], [answer] or
    [formatted_output]) is returned to the caller. *)
Theorem retrieval_failure_aborts (prov : Provider) (w : World) (t : Tool) (q : string)
    (ex : PyExc) (Hfail : tool_invoke prov t q = inr ex) :
  answer_question prov w t q = (inr ex, mkWorld (env w) (Some t), ["retrieve"]).
Proof. rewrite answer_question_eq, invoke_workflow, Hfail. reflexivity. Qed.

Lemma retrieval_failure_aborts_witness :
  tool_invoke embed_timeout_provider scenario_tool scenario_question = inr APITimeoutError /\
  answer_question embed_timeout_provider (initial_world some_env) scenario_tool scenario_question
  = (inr APITimeoutError, mkWorld some_env (Some scenario_tool), ["retrieve"]).
Proof.
  split; [reflexivity |].
  exact (retrieval_failure_aborts embed_timeout_provider (initial_world some_env)
           scenario_tool scenario_question APITimeoutError eq_refl).
Defined.

(** ** C7: the linear graph *)

(** C7 (counterexample): the claim says every query traverses all three
    stages.  A query whose embedding call times out enters only
    [retrieve]. *)
Lemma linear_pipeline_counterexample :
  trace_of (answer_question embed_timeout_provider (initial_world some_env)
              scenario_tool scenario_question) <> ["retrieve"; "generate"; "format"].
Proof. vm_compute. discriminate. Qed.

(** C7 (amended): the compiled graph is the fixed chain
    [retrieve -> generate -> format -> END], one unconditional edge per
    node and no cycle; every invocation that returns has entered exactly
    [retrieve], [generate], [format] in that order and stopped after
    [format]; an invocation that raises has entered a proper prefix of
    that sequence, ending at the stage that raised. *)
Theorem linear_pipeline (prov : Provider) (w : World) (t : Tool) (q : string) :
  graph_entry workflow = Some "retrieve"
  /\ graph_edges workflow = [("retrieve", "generate"); ("generate", "format"); ("format", END)]
  /\ ((exists s, outcome (answer_question prov w t q) = inl s
                 /\ trace_of (answer_question prov w t q) = ["retrieve"; "generate"; "format"])
      \/ (exists ex, outcome (answer_question prov w t q) = inr ex
                     /\ (trace_of (answer_question prov w t q) = ["retrieve"]
                         \/ trace_of (answer_question prov w t q) = ["retrieve"; "generate"]))).
Proof.
  split; [reflexivity | split; [reflexivity |]].
  rewrite answer_question_eq, invoke_workflow. cbv zeta.
  destruct (tool_invoke prov t q) as [d | ex].
  - destruct (gateway_headers (ensure_openai_key (env w))) as [hdrs | ex];
      [| right; exists ex; split; [reflexivity | right; reflexivity]].
    destruct (complete prov (chat_request hdrs q d)) as [a | ex].
    + left. eexists; split; reflexivity.
    + right. exists ex. split; [reflexivity | right; reflexivity].
  - right. exists ex. split; [reflexivity | left; reflexivity].
Qed.

(** ** C4: formatting *)

(** C4: [formatter_node] sets [formatted_output] to a fixed prefix, the
    question, a fixed middle, the answer and a fixed suffix, for any
    strings whatever (the constants do not depend on them): both appear
    verbatim, and nothing is cut, added or escaped. *)
Theorem formatter_verbatim (prov : Provider) (w : World) (q a : string)
    (d f : option string) :
  formatter_node prov w (mkState (Some q) d (Some a) f)
    = (inl [(Fformatted_output, fmt_prefix ++ q ++ fmt_mid ++ a ++ fmt_suffix)], w)
  /\ substring_of q (fmt_prefix ++ q ++ fmt_mid ++ a ++ fmt_suffix)
  /\ substring_of a (fmt_prefix ++ q ++ fmt_mid ++ a ++ fmt_suffix)
  /\ String.length (fmt_prefix ++ q ++ fmt_mid ++ a ++ fmt_suffix)
     = String.length fmt_prefix + String.length q + String.length fmt_mid
       + String.length a + String.length fmt_suffix.
Proof.
  split; [reflexivity | split; [| split]].
  - exists fmt_prefix, (fmt_mid ++ a ++ fmt_suffix). reflexivity.
  - exists (fmt_prefix ++ q ++ fmt_mid), fmt_suffix.
    rewrite !string_append_assoc. reflexivity.
  - rewrite !string_length_append. lia.
Qed.

(** ** C5: the generation request *)

Lemma prefix_app (n post : string) : String.prefix n (n ++ post) = true.
Proof.
  induction n as [| c n IH]; simpl; [destruct post; reflexivity |].
  destruct (ascii_dec c c) as [_ | H]; [exact IH | contradiction H; reflexivity].
Qed.

Lemma contains_prefix (n h : string) : String.prefix n h = true -> contains n h = true.
Proof. destruct h; simpl; intros H; rewrite H; reflexivity. Qed.

Lemma contains_sound (n h : string) : contains n h = false -> ~ substring_of n h.
Proof.
  intros Hc [pre [post ->]]. revert Hc.
  induction pre as [| c pre IH]; intros Hc.
  - simpl in Hc. rewrite contains_prefix in Hc; [discriminate Hc | apply prefix_app].
  - simpl in Hc. apply orb_false_iff in Hc. exact (IH (proj2 Hc)).
Qed.

(** C5 (counterexample): the claim says that for every input the stage
    invokes the completion and returns its text, under a template telling
    the model to use only the documentation.  In a process without
    [X_API_KEY], with a provider whose completion always answers,
    [generator_node] raises [TypeError] (building the HTTP client) and
    returns no answer; and the system message contains no "only". *)
Lemma generator_request_counterexample :
  (forall req, complete mock_provider req = inl scenario_answer)
  /\ fst (generator_node mock_provider (initial_world [])
            (mkState (Some scenario_question) (Some "") None None)) = inr TypeError
  /\ ~ substring_of "only" (system_prompt_format "").
Proof.
  split; [reflexivity | split; [reflexivity |]].
  apply contains_sound. vm_compute. reflexivity.
Qed.

(** C5 (amended): with [X_API_KEY] set to an ASCII value [k],
    [generator_node] sends exactly two messages, a system message that is
    the fixed template ("Use the provided documentation to answer the
    user's question accurately and concisely.", "If the documentation
    doesn't contain enough information, say so.", then "Documentation:")
    followed verbatim by [documents], and a human message that is the
    question verbatim, to model [gpt-4o-mini] at temperature [0.3] with
    header [X-Api-Key: k]; its [answer] is the completion text as
    returned, and it raises what the completion call raises.  With
    [X_API_KEY] unset it raises [TypeError], and with a non-ASCII value
    [UnicodeEncodeError], before any completion call. *)
Theorem generator_request_and_answer (prov : Provider) (w : World) (q d : string)
    (a f : option string) :
  (getenv (env w) "X_API_KEY" = None ->
     fst (generator_node prov w (mkState (Some q) (Some d) a f)) = inr TypeError)
  /\ (forall k, getenv (env w) "X_API_KEY" = Some k -> ascii_only k = false ->
        fst (generator_node prov w (mkState (Some q) (Some d) a f)) = inr UnicodeEncodeError)
  /\ (forall k, getenv (env w) "X_API_KEY" = Some k -> ascii_only k = true ->
        let req := chat_request [("X-Api-Key", k)] q d in
        req_messages req = [SystemMessage (system_prompt_prefix ++ d); HumanMessage q]
        /\ req_model req = "gpt-4o-mini"
        /\ req_temperature req = (3 # 10)%Q
        /\ substring_of "Use the provided documentation to answer the user's question accurately and concisely."
             system_prompt_prefix
        /\ substring_of "If the documentation doesn't contain enough information, say so."
             system_prompt_prefix
        /\ fst (generator_node prov w (mkState (Some q) (Some d) a f))
           = match complete prov req with
             | inl text => inl [(Fanswer, text)]
             | inr ex => inr ex
             end).
Proof.
  assert (Hg : fst (generator_node prov w (mkState (Some q) (Some d) a f))
               = match gateway_headers (env w) with
                 | inr ex => inr ex
                 | inl hdrs =>
                     match complete prov (chat_request hdrs q d) with
                     | inl text => inl [(Fanswer, text)]
                     | inr ex => inr ex
                     end
                 end).
  { unfold generator_node. simpl. rewrite gateway_headers_ensure.
    destruct (gateway_headers (env w)) as [h |]; [| reflexivity].
    destruct (complete prov (chat_request h q d)); reflexivity. }
  rewrite Hg. unfold gateway_headers.
  split; [| split].
  - intros H. rewrite H. reflexivity.
  - intros k H Ha. rewrite H, Ha. reflexivity.
  - intros k H Ha. rewrite H, Ha.
    split; [reflexivity | split; [reflexivity | split; [reflexivity |]]].
    split; [| split].
    + eexists ("You are a helpful LangSmith documentation expert. " ++ nl), _.
      unfold system_prompt_prefix. rewrite !string_append_assoc. reflexivity.
    + eexists ("You are a helpful LangSmith documentation expert. " ++ nl ++
               "Use the provided documentation to answer the user's question accurately and concisely." ++ nl), _.
      unfold system_prompt_prefix. rewrite !string_append_assoc. reflexivity.
    + reflexivity.
Qed.

(** ** C6: zero matches *)



(** ** C8: additive updates *)

(** C8: each node that returns returns a one-key update naming only its
    own key ([documents], [answer], [formatted_output]); merging a one-key
    update leaves every other key as it was; and a completed run keeps the
    caller's question and the retrieved documents. *)
Theorem updates_additive :
  (forall prov w s u w', retriever_node prov w s = (inl u, w') ->
     exists d, u = [(Fdocuments, d)])
  /\ (forall prov w s u w', generator_node prov w s = (inl u, w') ->
        exists a, u = [(Fanswer, a)])
  /\ (forall prov w s u w', formatter_node prov w s = (inl u, w') ->
        exists o, u = [(Fformatted_output, o)])
  /\ (forall s f g v, f <> g -> get_field (merge s [(f, v)]) g = get_field s g)
  /\ (forall prov w t q s w' tr, answer_question prov w t q = (inl s, w', tr) ->
        question s = Some q
        /\ exists d, tool_invoke prov t q = inl d /\ documents s = Some d).
Proof.
  split; [| split; [| split; [| split]]].
  - intros prov w s u w' H. unfold retriever_node in H.
    destruct (read s Fquestion); [| discriminate H].
    destruct (retriever_tool w); [| discriminate H].
    destruct (tool_invoke prov t s0); [| discriminate H].
    injection H as <- _. eexists; reflexivity.
  - intros prov w s u w' H. unfold generator_node in H.
    destruct (read s Fquestion); [| discriminate H].
    destruct (read s Fdocuments); [| discriminate H].
    destruct (gateway_headers _); [| discriminate H].
    destruct (complete prov _); [| discriminate H].
    injection H as <- _. eexists; reflexivity.
  - intros prov w s u w' H. unfold formatter_node in H.
    destruct (read s Fquestion); [| discriminate H].
    destruct (read s Fanswer); [| discriminate H].
    injection H as <- _. eexists; reflexivity.
  - intros s f g v Hfg.
    destruct f, g; solve [reflexivity | exfalso; apply Hfg; reflexivity].
  - intros prov w t q s w' tr H.
    rewrite answer_question_eq, invoke_workflow in H. cbv zeta in H.
    destruct (tool_invoke prov t q) as [d | ex]; [| discriminate H].
    destruct (gateway_headers _); [| discriminate H].
    destruct (complete prov _); [| discriminate H].
    injection H as <- _ _. split; [reflexivity |]. exists d. split; reflexivity.
Qed.

(** ** C9: repeating an invocation *)

(** C9: with a deterministic provider and an unchanged index, invoking
    the agent a second time with the same question, in the process the
    first invocation left behind (its [OPENAI_API_KEY] default set), gives
    the same outcome, so the same [documents] and [answer]. *)
Theorem invoke_twice_same (prov : Provider) (w : World) (t : Tool) (q : string) :
  let agent := fst (create_agent w t) in
  let w0 := snd (create_agent w t) in
  outcome (invoke agent prov w0 q)
  = outcome (invoke agent prov (snd (fst (invoke agent prov w0 q))) q).
Proof.
  cbv zeta. unfold create_agent, compile. simpl.
  rewrite invoke_workflow. cbv zeta.
  destruct (tool_invoke prov t q) as [d | ex] eqn:Ht.
  - simpl. rewrite gateway_headers_ensure.
    destruct (gateway_headers (env w)) as [h | ex] eqn:Hg.
    + destruct (complete prov (chat_request h q d)) as [a | ex] eqn:Hc;
        simpl; rewrite invoke_workflow, Ht; cbv zeta;
        rewrite !gateway_headers_ensure, Hg, Hc; reflexivity.
    + simpl. rewrite invoke_workflow, Ht. cbv zeta.
      rewrite !gateway_headers_ensure, Hg. reflexivity.
  - simpl. rewrite invoke_workflow, Ht. reflexivity.
Qed.

(** ** C10: the [retriever_tool] global *)

(** C10: [create_agent] stores its tool in the global that
    [retriever_node] reads when it runs, and the compiled graph holds no
    tool of its own: after a second [create_agent] with another tool, the
    first agent behaves exactly as the second and retrieves through the
    newer tool; before any [create_agent], [retriever_node] raises
    [AttributeError] ([None.invoke]). *)
Theorem retriever_global_shared :
  (forall w t1 t2 prov q,
     let agent1 := fst (create_agent w t1) in
     let w1 := snd (create_agent w t1) in
     let agent2 := fst (create_agent w1 t2) in
     let w2 := snd (create_agent w1 t2) in
     invoke agent1 prov w2 q = invoke agent2 prov w2 q
     /\ retriever_tool w2 = Some t2
     /\ retriever_node prov w2 (init_state q)
        = (match tool_invoke prov t2 q with
           | inl d => inl [(Fdocuments, d)]
           | inr ex => inr ex
           end, w2))
  /\ (forall prov e s, question s <> None ->
        retriever_node prov (initial_world e) s = (inr AttributeError, initial_world e)).
Proof.
  split.
  - intros w t1 t2 prov q. cbv zeta. simpl.
    split; [reflexivity | split; [reflexivity |]].
    unfold init_state. rewrite retriever_node_tool. reflexivity.
  - intros prov e s Hq. unfold retriever_node, read, get_field.
    destruct (question s); [reflexivity | contradiction Hq; reflexivity].
Qed.

(* ================================================================== *)
(** * Further properties of the code *)

(** ** The process environment *)

Lemma getenv_ensure_key (e : Env) :
  exists v, getenv (ensure_openai_key e) "OPENAI_API_KEY" = Some v /\ v <> ""
            /\ (forall u, getenv e "OPENAI_API_KEY" = Some u -> u <> "" -> v = u).
Proof.
  unfold ensure_openai_key.
  destruct (getenv e "OPENAI_API_KEY") as [[| c u] |] eqn:He.
  - exists "dummy". repeat split; [discriminate |]. intros u Hu Hne.
    injection Hu as <-. contradiction Hne; reflexivity.
  - exists (String c u). rewrite He. repeat split; [discriminate |].
    intros u' Hu _. injection Hu as <-. reflexivity.
  - exists "dummy". repeat split; [discriminate |]. intros u Hu. discriminate Hu.
Qed.

(** ** The nodes' effect on the process *)

(** [retriever_node] and [formatter_node] never change the process;
    [generator_node] changes it only by the [OPENAI_API_KEY] default:
    afterwards that variable is set and non-empty, a non-empty value the
    process had is kept, every other variable reads as before, and the
    [retriever_tool] global is untouched.  This holds whether the
    completion call returns or raises. *)
Theorem node_process_effects :
  (forall prov w s, snd (retriever_node prov w s) = w)
  /\ (forall prov w s, snd (formatter_node prov w s) = w)
  /\ (forall prov w q d a f,
        let w' := snd (generator_node prov w (mkState (Some q) (Some d) a f)) in
        retriever_tool w' = retriever_tool w
        /\ (exists v, getenv (env w') "OPENAI_API_KEY" = Some v /\ v <> "")
        /\ (forall u, getenv (env w) "OPENAI_API_KEY" = Some u -> u <> "" ->
              getenv (env w') "OPENAI_API_KEY" = Some u)
        /\ (forall n, n <> "OPENAI_API_KEY" -> getenv (env w') n = getenv (env w) n)).
Proof.
  split; [| split].
  - intros prov w s. unfold retriever_node.
    destruct (read s Fquestion); [| reflexivity].
    destruct (retriever_tool w); [| reflexivity].
    destruct (tool_invoke prov t s0); reflexivity.
  - intros prov w s. unfold formatter_node.
    destruct (read s Fquestion); [| reflexivity].
    destruct (read s Fanswer); reflexivity.
  - intros prov w q d a f. cbv zeta.
    assert (Hw : snd (generator_node prov w (mkState (Some q) (Some d) a f))
                 = mkWorld (ensure_openai_key (env w)) (retriever_tool w)).
    { unfold generator_node. simpl.
      destruct (gateway_headers _); [| reflexivity].
      destruct (complete prov _); reflexivity. }
    rewrite Hw. simpl.
    destruct (getenv_ensure_key (env w)) as [v [Hv [Hne Hkeep]]].
    split; [reflexivity | split; [| split]].
    + exists v. split; assumption.
    + intros u Hu Hu'. rewrite Hv, (Hkeep u Hu Hu'). reflexivity.
    + intros n Hn. apply getenv_ensure_other. exact Hn.
Qed.

(** A process without [X_API_KEY] never reaches the model: once
    retrieval returns, the run raises [TypeError] at [generate] (building
    the gateway client), whatever the provider's completion would do; the
    process keeps the [OPENAI_API_KEY] default set before the failure and
    the [retriever_tool] global the run installed. *)
Theorem answer_question_no_gateway_key (prov : Provider) (w : World) (t : Tool)
    (q d : string)
    (Hx : getenv (env w) "X_API_KEY" = None) (Ht : tool_invoke prov t q = inl d) :
  answer_question prov w t q
  = (inr TypeError, mkWorld (ensure_openai_key (env w)) (Some t), ["retrieve"; "generate"]).
Proof.
  rewrite answer_question_eq, invoke_workflow, Ht. cbv zeta.
  rewrite gateway_headers_ensure. unfold gateway_headers. rewrite Hx. reflexivity.
Qed.

Lemma answer_question_no_gateway_key_witness :
  getenv (env (initial_world [])) "X_API_KEY" = None /\
  tool_invoke mock_provider scenario_tool scenario_question = inl (py_join two_newlines (map page_content [chunk_a; chunk_b])) /\
  answer_question mock_provider (initial_world []) scenario_tool scenario_question
  = (inr TypeError, mkWorld (ensure_openai_key []) (Some scenario_tool), ["retrieve"; "generate"]).
Proof.
  split; [reflexivity | split; [vm_compute; reflexivity |]].
  apply answer_question_no_gateway_key with (d := py_join two_newlines (map page_content [chunk_a; chunk_b]));
    [reflexivity | vm_compute; reflexivity].
Defined.

(** ** Ingestion and loading *)

Lemma embed_documents_ok (prov : Provider) (cs : list string) (ds : list Doc) :
  embed_documents prov cs = inl ds ->
  map page_content ds = cs /\ Forall (fun d => embed prov (page_content d) = inl (doc_vec d)) ds.
Proof.
  revert ds. induction cs as [| c cs IH]; intros ds H; simpl in H.
  - injection H as <-. split; constructor.
  - destruct (embed prov c) as [v | ex] eqn:Hc; [| discriminate H].
    destruct (embed_documents prov cs) as [ds' | ex] eqn:Hr; [| discriminate H].
    injection H as <-. destruct (IH ds' eq_refl) as [Hm Hf].
    split; [simpl; rewrite Hm; reflexivity | constructor; [exact Hc | exact Hf]].
Qed.





(** When [setup_vector_store] returns, it has saved at
    [faiss_langsmith_index] an index of one entry per chunk, in chunk
    order, each stored with the embedding of its own text, and the tool it
    returns is exactly the one [create_retriever_tool] of [utils.py]
    builds over that index. *)
Theorem setup_vector_store_success (prov : Provider) (e : Env) (fs : FileSystem)
    (chunks : list string) (t : Tool) (e' : Env) (fs' : FileSystem)
    (Hok : setup_vector_store prov e fs chunks = (inl t, e', fs')) :
  exists vs, t = create_retriever_tool vs
    /\ fs' = save_local faiss_index_path vs fs
    /\ map page_content vs = chunks /\ chunks <> []
    /\ Forall (fun d => embed prov (page_content d) = inl (doc_vec d)) vs.
Proof.
  unfold setup_vector_store, from_documents in Hok.
  destruct (gateway_headers _); [| discriminate Hok].
  destruct (embed_documents prov chunks) as [[| d ds] | ex] eqn:Hr; try discriminate Hok.
  injection Hok as <- _ <-.
  destruct (embed_documents_ok prov chunks (d :: ds) Hr) as [Hm Hf].
  exists (d :: ds). split; [reflexivity | split; [reflexivity | split; [exact Hm | split]]].
  - intros Hnil. rewrite Hnil in Hm. discriminate Hm.
  - exact Hf.
Qed.

Lemma setup_vector_store_success_witness :
  exists vs, create_retriever_tool (map (fun c => mkDoc c [0%Z]) scenario_chunks)
             = create_retriever_tool vs
    /\ save_local faiss_index_path (map (fun c => mkDoc c [0%Z]) scenario_chunks) []
       = save_local faiss_index_path vs []
    /\ map page_content vs = scenario_chunks /\ scenario_chunks <> []
    /\ Forall (fun d => embed mock_provider (page_content d) = inl (doc_vec d)) vs.
Proof.
  apply (setup_vector_store_success mock_provider some_env [] scenario_chunks
           _ (ensure_openai_key some_env) _).
  reflexivity.
Defined.



(** ** Server start-up *)

(** [server.py] serves only with an index on disk and a non-empty
    [X_API_KEY]: without a saved index it exits with status 1 (whatever
    [X_API_KEY] is, since [load_agent] runs first); with an index but
    [X_API_KEY] unset or empty it exits with status 1; and when it serves,
    the agent is the three-node graph and the [retriever_tool] global is
    the tool over the saved index. *)
Theorem server_startup (w : World) (fs : FileSystem) :
  (assoc faiss_index_path fs = None -> server_main w fs = Exited 1)
  /\ (getenv (env w) "X_API_KEY" = None \/ getenv (env w) "X_API_KEY" = Some "" ->
        server_main w fs = Exited 1)
  /\ (forall agent w', server_main w fs = Serving agent w' ->
        agent = workflow
        /\ (exists vs, assoc faiss_index_path fs = Some vs
                       /\ retriever_tool w' = Some (create_retriever_tool vs))
        /\ (exists k, getenv (env w) "X_API_KEY" = Some k /\ k <> "")).
Proof.
  assert (Hn : "X_API_KEY" <> "OPENAI_API_KEY") by discriminate.
  unfold server_main, load_agent, load_retriever_tool, get_gateway_embeddings, load_local.
  rewrite gateway_headers_ensure. unfold gateway_headers.
  split; [| split].
  - intros H. rewrite H.
    destruct (getenv (env w) "X_API_KEY") as [v |]; [destruct (ascii_only v) |]; reflexivity.
  - intros [Hx | Hx]; rewrite Hx; [reflexivity |]. simpl.
    destruct (assoc faiss_index_path fs); [| reflexivity].
    simpl. rewrite (getenv_ensure_other _ _ Hn), Hx. reflexivity.
  - intros agent w' H.
    destruct (getenv (env w) "X_API_KEY") as [v |] eqn:Hv; [| discriminate H].
    destruct (ascii_only v); [| discriminate H].
    destruct (assoc faiss_index_path fs) as [vs |]; [| discriminate H].
    simpl in H. rewrite (getenv_ensure_other _ _ Hn), Hv in H.
    destruct v as [| c k]; [discriminate H |].
    injection H as <- <-. split; [reflexivity | split].
    + exists vs. split; reflexivity.
    + exists (String c k). split; [reflexivity | discriminate].
Qed.

